(** * A shallow embedding of [src/cicd/cli.py]

    The CI/CD orchestrator is a Typer application.  Its commands are
    modelled as computations in a small state-and-exception monad: the
    state holds the file system (a map from path strings to file
    contents), the directories created so far and the trace of observable
    effects (echoed messages, subprocess invocations, Kubernetes API
    submissions, playbook runs).  Python exceptions become an explicit
    error result; the external world (subprocess exit codes, directory
    listings, the Jinja renderer, the Kubernetes client, ansible-runner,
    the JSON parser) is a set of section variables.

    Characters are code points below 256 (Latin-1), so the ASCII and
    Latin-1 parts of Python's [str.strip] and [str.splitlines] are
    modelled exactly. *)

From Stdlib Require Import Ascii String ZArith Sorting.Sorted.
From stdpp Require Import base gmap strings list sorting.

Open Scope string_scope.

(* ------------------------------------------------------------------ *)
(** ** Python string primitives *)

(** [str.isspace] on one character: [\t \n \v \f \r], [\x1c]-[\x1f],
    space, [\x85] and [\xa0]. *)
Definition is_space (c : ascii) : bool :=
  let n := nat_of_ascii c in
  (((9 <=? n) && (n <=? 13)) || ((28 <=? n) && (n <=? 32))
   || (n =? 133) || (n =? 160))%nat.

(** Line boundaries of [str.splitlines] ([\r\n] is handled apart). *)
Definition is_line_break (c : ascii) : bool :=
  let n := nat_of_ascii c in
  ((n =? 10) || (n =? 11) || (n =? 12) || (n =? 13)
   || (n =? 28) || (n =? 29) || (n =? 30) || (n =? 133))%nat.

(** [str.lstrip()] *)
Fixpoint py_lstrip (s : string) : string :=
  match s with
  | EmptyString => EmptyString
  | String c r => if is_space c then py_lstrip r else s
  end.

(** [str.rstrip()] *)
Fixpoint py_rstrip (s : string) : string :=
  match s with
  | EmptyString => EmptyString
  | String c r =>
      let r' := py_rstrip r in
      if is_space c && String.eqb r' "" then "" else String c r'
  end.

(** [str.strip()] *)
Definition py_strip (s : string) : string := py_rstrip (py_lstrip s).

(** [s.startswith("#")] *)
Definition starts_with_hash (s : string) : bool :=
  match s with
  | String c _ => Ascii.eqb c "#"
  | EmptyString => false
  end.

(** ["=" in s] *)
Fixpoint has_eq (s : string) : bool :=
  match s with
  | EmptyString => false
  | String c r => Ascii.eqb c "=" || has_eq r
  end.

(** [k, v = s.split("=", 1)], for a string that contains ["="]. *)
Fixpoint split_first_eq (s : string) : string * string :=
  match s with
  | EmptyString => ("", "")
  | String c r =>
      if Ascii.eqb c "=" then ("", r)
      else let '(k, v) := split_first_eq r in (String c k, v)
  end.

(** [str.splitlines()]: [cur] holds the current line, reversed. *)
Fixpoint splitlines_aux (s : string) (cur : list ascii) : list string :=
  let emit := string_of_list_ascii (rev cur) in
  match s with
  | EmptyString => match cur with [] => [] | _ => [emit] end
  | String c r =>
      if Ascii.eqb c "013" then
        match r with
        | String "010" r' => emit :: splitlines_aux r' []
        | _ => emit :: splitlines_aux r []
        end
      else if is_line_break c then emit :: splitlines_aux r []
      else splitlines_aux r (c :: cur)
  end.

Definition py_splitlines (s : string) : list string := splitlines_aux s [].

(** Text-mode reading ([Path.read_text]) with universal newlines:
    [\r\n] and a lone [\r] are both read as [\n]. *)
Fixpoint universal_newlines (s : string) : string :=
  match s with
  | EmptyString => EmptyString
  | String "013" (String "010" r) => String "010" (universal_newlines r)
  | String "013" r => String "010" (universal_newlines r)
  | String c r => String c (universal_newlines r)
  end.

(* ------------------------------------------------------------------ *)
(** ** [_load_env_values] (lines 28-42) *)

(** The body of the [for] loop on one line: [Some (k, v)] when the line
    reaches [values[k.strip()] = v.strip()], [None] on [continue]. *)
Definition line_entry (line : string) : option (string * string) :=
  let line := py_strip line in
  if String.eqb line "" || starts_with_hash line || negb (has_eq line)
  then None
  else let '(k, v) := split_first_eq line in Some (py_strip k, py_strip v).

(** The [for] loop over the lines, threading the dict [values]. *)
Fixpoint load_lines (values : gmap string string) (lines : list string)
    : gmap string string :=
  match lines with
  | [] => values
  | line :: rest =>
      match line_entry line with
      | Some (k, v) => load_lines (<[k := v]> values) rest
      | None => load_lines values rest
      end
  end.

(** The mapping built from the text of a values file:
    [Path(values_file).read_text().splitlines()] then the loop. *)
Definition env_values_of_text (contents : string) : gmap string string :=
  load_lines ∅ (py_splitlines (universal_newlines contents)).

(** A line feed and a carriage return, to write file contents. *)
Definition LF : string := String "010" EmptyString.
Definition CR : string := String "013" EmptyString.



(* ------------------------------------------------------------------ *)
(** ** Paths, exceptions, effects and the command monad *)

(** [Path(d) / n].  [Path(s)] of a command-line string is taken as [s]. *)
Definition path_join (d n : string) : string := d ++ "/" ++ n.

(** [str.rfind(c)] *)
Fixpoint rfind (c : ascii) (s : string) : option nat :=
  match s with
  | EmptyString => None
  | String c' r =>
      match rfind c r with
      | Some i => Some (S i)
      | None => if Ascii.eqb c c' then Some 0 else None
      end
  end.

(** [PurePath.name]: the part after the last ["/"]. *)
Definition py_name (p : string) : string :=
  match rfind "/" p with
  | Some i => substring (S i) (String.length p - S i) p
  | None => p
  end.

(** [PurePath.suffix] of a name: [name[i:]] for [i = name.rfind(".")]
    when [0 < i < len(name) - 1], else [""]. *)
Definition py_suffix (name : string) : string :=
  match rfind "." name with
  | Some i =>
      if (0 <? i)%nat && (i <? String.length name - 1)%nat
      then substring i (String.length name - i) name else ""
  | None => ""
  end.

(** [PurePath.stem] of a name: [name[:i]] in the same case, else [name]. *)
Definition py_stem (name : string) : string :=
  match rfind "." name with
  | Some i =>
      if (0 <? i)%nat && (i <? String.length name - 1)%nat
      then substring 0 i name else name
  | None => name
  end.

(** The Python exceptions the commands raise or let through. *)
Inductive exn :=
| CalledProcessError (returncode : Z) (cmd : list string)
| TyperExit (code : Z)
| FileNotFoundError (path : string)
| IsADirectoryError (path : string)
| JSONDecodeError (msg : string)
| PyError (cls msg : string).

Definition exn_str (e : exn) : string :=
  match e with
  | CalledProcessError _ _ => "CalledProcessError"
  | TyperExit _ => "Exit"
  | FileNotFoundError p => p
  | IsADirectoryError p => p
  | JSONDecodeError m => m
  | PyError _ m => m
  end.

(** JSON values, as [json.loads] returns them. *)
Local Set Warnings "-register-all".
Inductive json :=
| JNull
| JBool (b : bool)
| JNum (n : Z)
| JStr (s : string)
| JArr (xs : list json)
| JObj (kvs : list (string * json)).

(** Observable effects, in the order they happen. *)
Inductive event :=
| Echo (msg : string)                       (* typer.echo / typer.secho *)
| Subprocess (cmd : list string)            (* subprocess.call / check_call *)
| ApiSubmit (path : string)                 (* utils.create_from_yaml *)
| AnsibleRun (private_data_dir playbook inventory : string) (extravars : json).

Record St := mkSt {
  st_files : gmap string string;   (* path -> stored contents *)
  st_dirs : gset string;           (* the directories *)
  st_log : list event;
  st_rng : Z                       (* state of Python's [random] generator *)
}.

Inductive Res (A : Type) := Ok (a : A) | Err (e : exn).
Arguments Ok {A} a.
Arguments Err {A} e.

(** A computation threads the state and may raise. *)
Definition M (A : Type) : Type := St -> Res A * St.

Definition ret {A} (a : A) : M A := fun s => (Ok a, s).

Definition bind {A B} (k : A -> M B) (m : M A) : M B :=
  fun s => match m s with
           | (Ok a, s') => k a s'
           | (Err e, s') => (Err e, s')
           end.

(** stdpp's [x ← m; k] and [m ;; k] notations for [M]. *)
#[global] Instance M_ret : MRet M := @ret.
#[global] Instance M_bind : MBind M := @bind.

Definition raise {A} (e : exn) : M A := fun s => (Err e, s).

(** [try: m except Exception as e: h e]; effects of [m] before the raise
    are kept. *)
Definition try_except {A} (m : M A) (h : exn -> M A) : M A :=
  fun s => match m s with
           | (Ok a, s') => (Ok a, s')
           | (Err e, s') => h e s'
           end.


Definition emit (ev : event) : M unit :=
  fun s => (Ok tt, mkSt (st_files s) (st_dirs s) (st_log s ++ [ev]) (st_rng s)).

Definition echo (msg : string) : M unit := emit (Echo msg).

(** A Python [for] loop whose body may raise. *)
Fixpoint for_ {A} (body : A -> M unit) (xs : list A) : M unit :=
  match xs with
  | [] => ret tt
  | x :: rest => body x ;; for_ body rest
  end.

(** [Path(p).read_text()]: text mode, so line endings are translated. *)
Definition read_text (p : string) : M string :=
  fun s => match st_files s !! p with
           | Some c => (Ok (universal_newlines c), s)
           | None =>
               if bool_decide (p ∈ st_dirs s) then (Err (IsADirectoryError p), s)
               else (Err (FileNotFoundError p), s)
           end.

(** [Path(p).write_text(t)]: creates or truncates the file. *)
Definition write_text (p t : string) : M unit :=
  fun s => (Ok tt, mkSt (<[p := t]> (st_files s)) (st_dirs s) (st_log s) (st_rng s)).

(** [_ensure_dir] (lines 45-46): [mkdir(parents=True, exist_ok=True)]. *)
Definition _ensure_dir (p : string) : M unit :=
  fun s => (Ok tt, mkSt (st_files s) ({[p]} ∪ st_dirs s) (st_log s) (st_rng s)).

(** [_load_env_values] (lines 28-42). *)
Definition _load_env_values (values_file : option string)
    : M (gmap string string) :=
  match values_file with
  | None => ret ∅
  | Some f =>
      if String.eqb f "" then ret ∅
      else text ← read_text f; ret (load_lines ∅ (py_splitlines text))
  end.

(** The exit status of a Typer command: 0 when it returns, [code] for
    [typer.Exit(code)], and 1 for any other exception, which Click's
    standalone mode does not catch and the interpreter reports. *)
Definition exit_status (r : Res unit) : Z :=
  match r with
  | Ok _ => 0
  | Err (TyperExit c) => c
  | Err _ => 1
  end.

(** The glob pattern ["*.y*ml"] of [Path.glob] on one name, as
    [fnmatch] translates it ([.*\.y.*ml]): some [".y"] is followed by a
    rest that ends in ["ml"].  On POSIX the match is case-sensitive. *)
Fixpoint ends_with_ml (s : string) : bool :=
  match s with
  | EmptyString => false
  | String c r => (Ascii.eqb c "m" && String.eqb r "l") || ends_with_ml r
  end.

Fixpoint glob_yml (name : string) : bool :=
  match name with
  | EmptyString => false
  | String c r =>
      (Ascii.eqb c "." && match r with
                          | String c' r' => Ascii.eqb c' "y" && ends_with_ml r'
                          | EmptyString => false
                          end)
      || glob_yml r
  end.

(** [sorted] on paths of one directory: code-point order of strings. *)
Definition path_le (a b : string) : Prop := String.leb a b = true.
#[global] Instance path_le_dec : RelDecision path_le :=
  fun a b => decide (String.leb a b = true).
#[global] Instance path_le_total : Total path_le := String.leb_total.

(* ------------------------------------------------------------------ *)
(** ** A concrete environment, to run the commands on *)

Module Demo.

(** A checkout at [/repo]. *)
Definition ROOT : string := "/repo".

(** Directory listings: [/m] holds two manifests; [/c] mixes cases and an
    unusual extension; the manifest directory of [/repo] holds a template
    and a plain file with the same output name, and a subdirectory; those
    of [/r2] and [/r3] hold one template each. *)
Definition listdir (d : string) : list (string * bool) :=
  if String.eqb d "/m" then [("a.yaml", false); ("b.yaml", false)]
  else if String.eqb d "/c" then
    [("a.YAML", false); ("b.yhtml", false); ("c.yml", false)]
  else if String.eqb d "/repo/openshift/manifests" then
    [("x.yaml.j2", false); ("x.yaml", false); ("sub", true)]
  else if String.eqb d "/r2/openshift/manifests" then [("t.yaml.j2", false)]
  else if String.eqb d "/r3/openshift/manifests" then [("bad.yaml.j2", false)]
  else [].

Definition path_exists (p : string) : bool :=
  String.eqb p "/m" || String.eqb p "/c".

(** [oc] is installed; [oc apply] exits with 2 on [/m/a.yaml]. *)
Definition proc_rc_oc (cmd : list string) : Z :=
  if bool_decide (cmd = ["oc"; "apply"; "-f"; "/m/a.yaml"]) then 2%Z else 0%Z.

(** Neither [oc] nor [kubectl] is installed. *)
Definition proc_rc_none (cmd : list string) : Z := 1%Z.


Definition no_error (p : string) : option exn := None.

(** Every template parses. *)
Definition no_syntax_error (t : string) : option exn := None.

Definition template_syntax_exn : exn :=
  PyError "TemplateSyntaxError" "Expected an expression, got 'end of statement block'".

(** A template with an empty [if] does not parse. *)
Definition syntax_error (t : string) : option exn :=
  if String.eqb t "{% if %}" then Some template_syntax_exn else None.

(** A renderer that outputs the template source and draws nothing from the
    random generator. *)
Definition jinja_render (t : string) (vars_ : gmap string string) (g : Z) : Res string * Z :=
  (Ok t, g).


Definition json_loads (s : string) : Res json :=
  if String.eqb s "{" then Err (JSONDecodeError "Expecting property name")
  else Ok (JObj []).

Definition ansible_rc (playbook : string) (ev : json) : Z := 0%Z.

(** The runner writes the return code under [artifacts]. *)
Definition ansible_fs (playbook : string) (ev : json) (fs : gmap string string)
    (ds : gset string) : gmap string string * gset string :=
  (<["/repo/ansible/artifacts/rc" := "0"]> fs, {["/repo/ansible/artifacts"]} ∪ ds).

(** A values file with a repeated key and an empty key. *)
Definition env_text : string := "A=1" ++ LF ++ "A=2" ++ LF ++ "=e".

(** The files: the values file, the two manifest sources of [/repo] (the
    plain one with Windows line endings), the template of [/r2] and the
    malformed template of [/r3]. *)
Definition files : gmap string string :=
  <["/v.env" := env_text]>
  (<["/repo/openshift/manifests/x.yaml.j2" := "a: {{ A }}"]>
  (<["/repo/openshift/manifests/x.yaml" := "a: 1" ++ CR ++ LF]>
  (<["/r2/openshift/manifests/t.yaml.j2" := "x: {{ ['a', 'b'] | random }}"]>
  (<["/r3/openshift/manifests/bad.yaml.j2" := "{% if %}"]> ∅)))).

(** The manifest directories are directories. *)
Definition dirs : gset string :=
  {["/repo/openshift/manifests"; "/r2/openshift/manifests"; "/r3/openshift/manifests"]}.

(** The state a command starts from, with the generator in state [g]. *)
Definition σ_at (g : Z) : St := mkSt files dirs [] g.

Definition σ0 : St := σ_at 0.

End Demo.

(* ------------------------------------------------------------------ *)
(** ** The commands *)

Section Cli.

(** The checkout root ([ROOT], line 23). *)
Variable ROOT : string.
(** Exit status of a subprocess run with the given argument vector. *)
Variable proc_rc : list string -> Z.
(** [Path.exists()] *)
Variable path_exists : string -> bool.
(** [Path.iterdir()] of a directory in its listing order, each entry with
    its [is_dir()]. *)
Variable listdir : string -> list (string * bool).
(** The [TemplateSyntaxError] [env.get_template] raises on a template
    source that does not parse, if any. *)
Variable jinja_syntax_error : string -> option exn.
(** [Template.render] of a template source with the values as keyword
    arguments, from the state of Python's [random] generator (which the
    [random] filter and the [lipsum] global draw from): the output or the
    exception raised, and the generator's state afterwards. *)
Variable jinja_render : string -> gmap string string -> Z -> Res string * Z.
(** The error of [config.load_incluster_config] / [load_kube_config]. *)
Variable kube_config_error : option string.
(** The exception of [ApiClient()], if any. *)
Variable api_client_error : option exn.
(** The exception of [yf.open()] on a path, if any. *)
Variable open_error : string -> option exn.
(** The exception of [utils.create_from_yaml] on a path, if any. *)
Variable create_from_yaml : string -> option exn.
(** [json.loads] *)
Variable json_loads : string -> Res json.
(** [ansible_runner.run(...).rc] for a playbook and its extra vars. *)
Variable ansible_rc : string -> json -> Z.
(** The files and directories after [ansible_runner.run] for a playbook
    and its extra vars, from those before: the runner writes its
    artifacts under [private_data_dir], and the playbook may change
    files of its own. *)
Variable ansible_fs : string -> json -> gmap string string -> gset string ->
  gmap string string * gset string.

Definition MANIFEST_DIR : string := path_join (path_join ROOT "openshift") "manifests".
Definition BUILD_DIR : string := path_join (path_join ROOT "build") "manifests".

(** [subprocess.call(cmd)] *)
Definition subprocess_call (cmd : list string) : M Z :=
  emit (Subprocess cmd);; ret (proc_rc cmd).

(** [subprocess.check_call(cmd)] *)
Definition check_call (cmd : list string) : M unit :=
  rc ← subprocess_call cmd;
  if Z.eqb rc 0 then ret tt else raise (CalledProcessError rc cmd).

(** [_oc_available] (lines 49-51) *)
Definition _oc_available : M bool :=
  rc ← subprocess_call ["which"; "oc"]; ret (Z.eqb rc 0).

(** [_kubectl_available] (lines 54-56) *)
Definition _kubectl_available : M bool :=
  rc ← subprocess_call ["which"; "kubectl"]; ret (Z.eqb rc 0).

(** [_kube_login_if_needed] (lines 59-69): a failure is only a warning. *)
Definition _kube_login_if_needed : M unit :=
  match kube_config_error with
  | Some e => echo ("[warn] kubeconfig not loaded: " ++ e)
  | None => ret tt
  end.

(** [env.get_template(name)] with [FileSystemLoader(MANIFEST_DIR)]: loads
    and parses the source. *)
Definition get_template (name : string) : M string :=
  fun s => match st_files s !! path_join MANIFEST_DIR name with
           | Some c =>
               match jinja_syntax_error c with
               | Some e => (Err e, s)
               | None => (Ok c, s)
               end
           | None => (Err (PyError "TemplateNotFound" name), s)
           end.

(** [template.render] with the values as keyword arguments *)
Definition template_render (template : string) (vars_ : gmap string string) : M string :=
  fun s => let '(r, g) := jinja_render template vars_ (st_rng s) in
           (r, mkSt (st_files s) (st_dirs s) (st_log s) g).

(** The body of the loop of [render] (lines 107-119). *)
Definition render_entry (vars_ : gmap string string) (outdir : string)
    (tmpl : string * bool) : M unit :=
  let '(name, is_dir) := tmpl in
  if is_dir then ret tt
  else if String.eqb (py_suffix name) ".j2" then
    template ← get_template name;
    rendered ← template_render template vars_;
    let out_path := path_join outdir (py_stem name) in
    write_text out_path rendered;;
    echo ("Rendered " ++ name ++ " -> " ++ out_path)
  else
    let out_path := path_join outdir name in
    text ← read_text (path_join MANIFEST_DIR name);
    write_text out_path text;;
    echo ("Copied " ++ name ++ " -> " ++ out_path).

(** [render] (lines 95-121) *)
Definition render (values : option string) (outdir : string) : M unit :=
  vars_ ← _load_env_values values;
  _ensure_dir outdir;;
  for_ (render_entry vars_ outdir) (listdir MANIFEST_DIR);;
  echo "Render complete.".

(** The body of the render loop of [deploy] (lines 196-203). *)
Definition deploy_render_entry (vars_ : gmap string string) (outdir : string)
    (tmpl : string * bool) : M unit :=
  let '(name, is_dir) := tmpl in
  if is_dir then ret tt
  else if String.eqb (py_suffix name) ".j2" then
    template ← get_template name;
    rendered ← template_render template vars_;
    write_text (path_join outdir (py_stem name)) rendered
  else
    text ← read_text (path_join MANIFEST_DIR name);
    write_text (path_join outdir name) text.

(** Lines 191-203 of [deploy]: load the values, then render. *)
Definition deploy_render_phase (values : option string)
    : M (string * gmap string string) :=
  vars_ ← _load_env_values values;
  let outdir := path_join (path_join ROOT "build") "manifests" in
  _ensure_dir outdir;;
  for_ (deploy_render_entry vars_ outdir) (listdir MANIFEST_DIR);;
  ret (outdir, vars_).

(** [ansible_runner.run(private_data_dir=..., playbook=..., extravars=...,
    inventory=...)] *)
Definition ansible_runner_run (private_data_dir playbook inventory : string)
    (extravars : json) : M Z :=
  fun s => let fs := ansible_fs playbook extravars (st_files s) (st_dirs s) in
           (Ok (ansible_rc playbook extravars),
            mkSt fs.1 fs.2 (st_log s ++ [AnsibleRun private_data_dir playbook inventory extravars])
              (st_rng s)).

(** [_run_ansible] (lines 171-183) *)
Definition _run_ansible (playbook : string) (extravars : json) : M Z :=
  echo ("> Ansible playbook: " ++ playbook);;
  ansible_runner_run (path_join ROOT "ansible") playbook
    (path_join (path_join (path_join ROOT "ansible") "inventory") "hosts.ini")
    extravars.

(** [{"manifest_dir": str(outdir), **vars_}]: a key of [vars_] wins. *)
Definition deploy_extravars (outdir : string) (vars_ : gmap string string) : json :=
  JObj ((fun kv => (kv.1, JStr kv.2)) <$>
          map_to_list (vars_ ∪ {["manifest_dir" := outdir]})).

(** [deploy] (lines 186-213) *)
Definition deploy (values : option string) : M unit :=
  r ← deploy_render_phase values;
  let '(outdir, vars_) := r in
  rc ← _run_ansible "deploy.yml" (deploy_extravars outdir vars_);
  if Z.eqb rc 0 then echo "Deploy succeeded."
  else echo "Deploy failed";; raise (TyperExit rc).

(** [sorted(manifest_dir.glob("*.y*ml"))] *)
Definition yml_files (mdir : string) : list string :=
  merge_sort path_le
    (map (path_join mdir) (List.filter glob_yml (map fst (listdir mdir)))).

(** The body of the loop of [_apply_with_python] (lines 131-136). *)
Definition apply_python_file (yf : string) : M unit :=
  echo ("Applying " ++ py_name yf ++ " via Python client");;
  match open_error yf with
  | Some e => raise e
  | None =>
      try_except
        (emit (ApiSubmit yf);;
         match create_from_yaml yf with
         | Some e => raise e
         | None => ret tt
         end)
        (fun e => echo ("  warn: " ++ exn_str e))
  end.

(** [_apply_with_python] (lines 124-136) *)
Definition _apply_with_python (manifest_dir : string) : M unit :=
  _kube_login_if_needed;;
  (match api_client_error with Some e => raise e | None => ret tt end);;
  for_ apply_python_file (yml_files manifest_dir).

(** [["oc", "apply", "-f", str(yf)]] *)
Definition oc_cmd (yf : string) : list string := ["oc"; "apply"; "-f"; yf].

(** The body of the loop of [_apply_with_oc] (lines 141-143). *)
Definition apply_oc_file (yf : string) : M unit :=
  let cmd := oc_cmd yf in
  echo ("Running: " ++ String.concat " " cmd);;
  check_call cmd.

(** [_apply_with_oc] (lines 139-143) *)
Definition _apply_with_oc (manifest_dir : string) : M unit :=
  for_ apply_oc_file (yml_files manifest_dir).

(** [apply] (lines 146-168) *)
Definition apply (manifests : string) : M unit :=
  let mdir := manifests in
  if negb (path_exists mdir) then
    echo ("Manifests not found: " ++ mdir);; raise (TyperExit 1)
  else
    oc ← _oc_available;
    (if (oc : bool) then _apply_with_oc mdir
     else
       echo "oc not found, using python client (or kubectl if present)";;
       try_except (_apply_with_python mdir)
         (fun e =>
            k ← _kubectl_available;
            if (k : bool) then check_call ["kubectl"; "apply"; "-f"; mdir]
            else echo "Neither oc nor kubectl available.";; raise e));;
    echo "Apply complete.".

(** [ev = json.loads(extravars) if extravars else {}] (line 233) *)
Definition load_extravars (extravars : option string) : M json :=
  match extravars with
  | Some s =>
      if String.eqb s "" then ret (JObj [])
      else match json_loads s with Ok j => ret j | Err e => raise e end
  | None => ret (JObj [])
  end.

(** [run_playbook] (lines 228-235) *)
Definition run_playbook (playbook : string) (extravars : option string) : M unit :=
  ev ← load_extravars extravars;
  rc ← _run_ansible playbook ev;
  raise (TyperExit rc).

(** [["oc", "login", cluster_api, f"--token={token}"]] and the TLS flag
    (lines 83-88). *)
Definition login_cmd (cluster_api token : string) (insecure_skip_tls_verify : bool)
    : list string :=
  (["oc"; "login"; cluster_api; ("--token=" ++ token)%string]
   ++ (if insecure_skip_tls_verify then ["--insecure-skip-tls-verify=true"] else []))%list.

(** [oc_login] (lines 72-92); the options are given. *)
Definition oc_login (cluster_api token : string) (insecure_skip_tls_verify : bool)
    : M unit :=
  oc ← _oc_available;
  if negb (oc : bool) then
    echo "oc not found in PATH. Install OpenShift CLI.";; raise (TyperExit 1)
  else
    let cmd := login_cmd cluster_api token insecure_skip_tls_verify in
    echo ("Running: " ++ String.concat " " cmd);;
    check_call cmd;;
    echo "Logged in with oc.".

(** [rollback] (lines 216-225) *)
Definition rollback (namespace : string) : M unit :=
  rc ← _run_ansible "rollback.yml" (JObj [("NAMESPACE", JStr namespace)]);
  if Z.eqb rc 0 then echo "Rollback succeeded."
  else echo "Rollback failed";; raise (TyperExit rc).


(* ------------------------------------------------------------------ *)
(** ** Helpers for the statements *)

(** Every character of [s] is whitespace. *)
Fixpoint all_space (s : string) : bool :=
  match s with
  | EmptyString => true
  | String c r => is_space c && all_space r
  end.

(** The commands run as subprocesses, in order, in a trace. *)
Definition subprocesses (log : list event) : list (list string) :=
  omap (fun ev => match ev with Subprocess c => Some c | _ => None end) log.

(** The files submitted to the Kubernetes API, in order, in a trace. *)
Definition submissions (log : list event) : list string :=
  omap (fun ev => match ev with ApiSubmit p => Some p | _ => None end) log.

(** The playbook runs of a trace. *)
Definition ansible_runs (log : list event) : list string :=
  omap (fun ev => match ev with AnsibleRun _ pb _ _ => Some pb | _ => None end) log.

(** The prefix of [xs] before the first element failing [ok]. *)
Fixpoint take_while {A} (ok : A -> bool) (xs : list A) : list A :=
  match xs with
  | [] => []
  | x :: r => if ok x then x :: take_while ok r else []
  end.

(** The prefix of [xs] up to and including the first element failing [ok]. *)
Fixpoint upto_failure {A} (ok : A -> bool) (xs : list A) : list A :=
  match xs with
  | [] => []
  | x :: r => if ok x then x :: upto_failure ok r else [x]
  end.

(** The first element of [xs] failing [ok]. *)
Fixpoint first_failure {A} (ok : A -> bool) (xs : list A) : option A :=
  match xs with
  | [] => None
  | x :: r => if ok x then first_failure ok r else Some x
  end.

(** The first exception [g] reports along [xs]. *)
Fixpoint first_error {A} (g : A -> option exn) (xs : list A) : option exn :=
  match xs with
  | [] => None
  | x :: r => match g x with Some e => Some e | None => first_error g r end
  end.

(** [oc apply -f yf] exits with 0. *)
Definition oc_ok (yf : string) : bool := Z.eqb (proc_rc (oc_cmd yf)) 0.

(** [yf.open()] succeeds. *)
Definition open_ok (yf : string) : bool :=
  match open_error yf with None => true | Some _ => false end.

(** The exception that escapes [_apply_with_python] on a directory. *)
Definition python_error (mdir : string) : option exn :=
  match api_client_error with
  | Some e => Some e
  | None => first_error open_error (yml_files mdir)
  end.

(** The files [_apply_with_python] submits on a directory. *)
Definition python_submitted (mdir : string) : list string :=
  match api_client_error with
  | Some _ => []
  | None => take_while open_ok (yml_files mdir)
  end.








(** [s] contains none of the line boundaries of [str.splitlines]. *)
Fixpoint no_break (s : string) : bool :=
  match s with
  | EmptyString => true
  | String c r => negb (is_line_break c) && no_break r
  end.


(** The line [k=v] of a values file. *)
Definition env_line (kv : string * string) : string := kv.1 ++ "=" ++ kv.2.

(** A values file with one [k=v] line per pair, each ended by a line feed,
    as [test_env_loader] writes it. *)
Fixpoint env_file (kvs : list (string * string)) : string :=
  match kvs with
  | [] => ""
  | kv :: rest => env_line kv ++ LF ++ env_file rest
  end.

(** The playbook runs of a trace with their extra vars. *)
Definition ansible_calls (log : list event) : list (string * json) :=
  omap (fun ev => match ev with AnsibleRun _ pb _ j => Some (pb, j) | _ => None end) log.


(* ------------------------------------------------------------------ *)
(** ** Lemmas on the string primitives and the loader *)

Lemma is_space_eq : is_space "=" = false.
Proof. reflexivity. Qed.

Lemma py_lstrip_app_space (w s : string) :
  all_space w = true -> py_lstrip (w ++ s) = py_lstrip s.
Proof.
  induction w as [|c w IH]; simpl; [done|].
  intros H. apply andb_prop in H as [Hc Hw]. rewrite Hc. auto.
Qed.

Lemma py_lstrip_rstrip (s : string) :
  py_lstrip (py_rstrip s) = py_rstrip (py_lstrip s).
Proof.
  induction s as [|c r IH]; simpl; [done|].
  destruct (is_space c) eqn:Hc; simpl.
  - destruct (String.eqb (py_rstrip r) "") eqn:He; simpl.
    + apply String.eqb_eq in He. rewrite <- IH, He. done.
    + rewrite Hc. done.
  - rewrite Hc. simpl. done.
Qed.

Lemma py_rstrip_idem (s : string) : py_rstrip (py_rstrip s) = py_rstrip s.
Proof.
  induction s as [|c r IH]; simpl; [done|].
  destruct (is_space c && String.eqb (py_rstrip r) "") eqn:H; simpl; [done|].
  rewrite IH, H. done.
Qed.

Lemma py_strip_rstrip (s : string) : py_strip (py_rstrip s) = py_strip s.
Proof.
  unfold py_strip. rewrite py_lstrip_rstrip, py_rstrip_idem. done.
Qed.

Lemma split_first_eq_app (k v : string) :
  has_eq k = false -> split_first_eq (k ++ "=" ++ v) = (k, v).
Proof.
  induction k as [|c k IH]; simpl; [done|].
  intros H. apply orb_false_elim in H as [Hc Hk].
  rewrite Hc, IH by done. done.
Qed.

Lemma has_eq_app (k v : string) : has_eq (k ++ "=" ++ v) = true.
Proof. induction k as [|c k IH]; simpl; [done|]. rewrite IH, orb_true_r. done. Qed.

(** A stripped line [k0 = v0] whose [k0] has no ["="] and does not start
    with ["#"] is stored as [strip k0 -> strip v0]. *)
Lemma line_entry_split (line k0 v0 : string) :
  py_strip line = k0 ++ "=" ++ v0 ->
  has_eq k0 = false -> starts_with_hash k0 = false ->
  line_entry line = Some (py_strip k0, py_strip v0).
Proof.
  intros Hl Hk Hh. unfold line_entry. rewrite Hl, has_eq_app.
  replace (String.eqb (k0 ++ "=" ++ v0) "") with false
    by (destruct k0; reflexivity).
  replace (starts_with_hash (k0 ++ "=" ++ v0)) with false
    by (destruct k0; simpl in *; done).
  simpl. rewrite split_first_eq_app by done. done.
Qed.

Lemma load_lines_app (m : gmap string string) (l1 l2 : list string) :
  load_lines m (l1 ++ l2) = load_lines (load_lines m l1) l2.
Proof.
  revert m. induction l1 as [|l l1 IH]; intros m; simpl; [done|].
  destruct (line_entry l) as [[k v]|]; apply IH.
Qed.

Lemma load_lines_other (m : gmap string string) (k : string) (ls : list string) :
  Forall (fun l => fst <$> line_entry l <> Some k) ls ->
  load_lines m ls !! k = m !! k.
Proof.
  revert m. induction ls as [|l ls IH]; intros m Hf; simpl; [done|].
  inversion Hf as [|? ? Hl Hr]; subst.
  destruct (line_entry l) as [[k' v]|] eqn:He; rewrite IH by done; [|done].
  simpl in Hl. rewrite lookup_insert_ne; [done|]. congruence.
Qed.

Lemma load_lines_last (m : gmap string string) pre line post k v :
  line_entry line = Some (k, v) ->
  Forall (fun l => fst <$> line_entry l <> Some k) post ->
  load_lines m (pre ++ line :: post) !! k = Some v.
Proof.
  intros He Hf. rewrite load_lines_app. simpl. rewrite He.
  rewrite load_lines_other by done. apply lookup_insert_eq.
Qed.

(** Every entry of the mapping comes from a line the loop accepted. *)
Lemma load_lines_origin (m : gmap string string) (ls : list string) k v :
  load_lines m ls !! k = Some v ->
  m !! k = Some v \/ exists line, In line ls /\ line_entry line = Some (k, v).
Proof.
  revert m. induction ls as [|l ls IH]; intros m H; simpl in *; [auto|].
  destruct (line_entry l) as [[k' v']|] eqn:He.
  - destruct (IH _ H) as [Hm|[line [Hin Hl]]]; [|eauto].
    destruct (decide (k = k')) as [->|Hne].
    + rewrite lookup_insert_eq in Hm. injection Hm as ->. eauto.
    + rewrite lookup_insert_ne in Hm by congruence. auto.
  - destruct (IH _ H) as [Hm|[line [Hin Hl]]]; eauto.
Qed.

Lemma py_lstrip_head (s r : string) (c : ascii) :
  py_lstrip s = String c r -> is_space c = false.
Proof.
  induction s as [|c' s IH]; simpl; [done|].
  destruct (is_space c') eqn:Hc; [apply IH|]. intros H; injection H as -> ->. done.
Qed.

(** What [line_entry] accepts: a non-blank stripped line, not a comment,
    with an ["="]; its key does not start with ["#"]. *)
Lemma line_entry_Some (line k v : string) :
  line_entry line = Some (k, v) ->
  py_strip line <> "" /\ starts_with_hash (py_strip line) = false
  /\ has_eq (py_strip line) = true /\ starts_with_hash k = false.
Proof.
  unfold line_entry.
  destruct (String.eqb (py_strip line) "") eqn:He; simpl; [done|].
  destruct (starts_with_hash (py_strip line)) eqn:Hh; simpl; [done|].
  destruct (has_eq (py_strip line)) eqn:Hq; simpl; [|done].
  destruct (split_first_eq (py_strip line)) as [k0 v0] eqn:Hs.
  intros H; injection H as <- <-.
  apply String.eqb_neq in He. repeat split; try done.
  unfold py_strip in *.
  destruct (py_lstrip line) as [|c r] eqn:Hl; [done|].
  pose proof (py_lstrip_head _ _ _ Hl) as Hc.
  simpl in *. rewrite Hc in *. simpl in *.
  destruct (Ascii.eqb c "=") eqn:Heq.
  - injection Hs as <- <-. done.
  - destruct (split_first_eq (py_rstrip r)) as [k1 v1].
    injection Hs as <- <-. simpl. rewrite Hc. simpl. rewrite Hc. simpl. done.
Qed.
Lemma load_lines_keeps (m : gmap string string) (ls : list string) k :
  is_Some (m !! k) -> is_Some (load_lines m ls !! k).
Proof.
  revert m. induction ls as [|l ls IH]; intros m Hm; simpl; [done|].
  destruct (line_entry l) as [[k' v]|]; apply IH; [|done].
  destruct (decide (k = k')) as [->|Hne].
  - rewrite lookup_insert_eq. eauto.
  - rewrite lookup_insert_ne by congruence. done.
Qed.

Lemma load_env_values_file (σ : St) (f txt : string) :
  f <> "" -> st_files σ !! f = Some txt ->
  _load_env_values (Some f) σ = (Ok (env_values_of_text txt), σ).
Proof.
  intros Hf Ht. unfold _load_env_values.
  apply String.eqb_neq in Hf. rewrite Hf.
  unfold mbind, M_bind, bind, read_text. rewrite Ht. done.
Qed.

Lemma line_entry_empty_key (w v : string) :
  all_space w = true -> line_entry (w ++ "=" ++ v) = Some ("", py_strip v).
Proof.
  intros Hw.
  assert (Hs : py_strip (w ++ "=" ++ v) = "" ++ "=" ++ py_rstrip v).
  { unfold py_strip. rewrite py_lstrip_app_space by done. done. }
  rewrite (line_entry_split _ _ _ Hs) by done.
  rewrite py_strip_rstrip. done.
Qed.

Example env_values_test :
  env_values_of_text
    ("# c" ++ LF ++ LF ++ "  A = 1 " ++ LF ++ "B" ++ LF ++ "A=2" ++ CR ++ LF
     ++ "C=x=y" ++ LF ++ "=v")
  = <["" := "v"]> (<["C" := "x=y"]> (<["A" := "2"]> ∅)).
Proof. vm_compute. reflexivity. Qed.
(* ------------------------------------------------------------------ *)
(** ** Lemmas on the commands *)

Ltac unfold_m :=
  unfold mbind, M_bind, bind, mret, M_ret, ret, raise, emit, echo,
    write_text, read_text, get_template, template_render, _ensure_dir,
    ansible_runner_run in *; simpl in *.

Lemma append_cons (c : ascii) (a b : string) : String c a ++ b = String c (a ++ b).
Proof. reflexivity. Qed.








Lemma St_eta_nil (σ : St) : σ = mkSt (st_files σ) (st_dirs σ) (st_log σ ++ []) (st_rng σ).
Proof. destruct σ; simpl. rewrite app_nil_r. done. Qed.

Lemma apply_oc_file_run (f : string) (σ : St) :
  apply_oc_file f σ =
    (if oc_ok f then Ok tt
     else Err (CalledProcessError (proc_rc (oc_cmd f)) (oc_cmd f)),
     mkSt (st_files σ) (st_dirs σ)
       (st_log σ ++ [Echo ("Running: " ++ String.concat " " (oc_cmd f));
                     Subprocess (oc_cmd f)]) (st_rng σ)).
Proof.
  unfold apply_oc_file, check_call, subprocess_call, oc_ok. unfold_m.
  rewrite <- app_assoc. destruct (Z.eqb _ 0); done.
Qed.

Lemma apply_python_file_run (f : string) (σ : St) :
  apply_python_file f σ =
    (match open_error f with Some e => Err e | None => Ok tt end,
     mkSt (st_files σ) (st_dirs σ)
       (st_log σ ++ Echo ("Applying " ++ py_name f ++ " via Python client")
          :: match open_error f with
             | Some _ => []
             | None =>
                 ApiSubmit f :: match create_from_yaml f with
                                | Some e => [Echo ("  warn: " ++ exn_str e)]
                                | None => []
                                end
             end) (st_rng σ)).
Proof.
  unfold apply_python_file, try_except. unfold_m.
  destruct (open_error f); simpl; [done|].
  destruct (create_from_yaml f); unfold_m; rewrite <- ?app_assoc; simpl; done.
Qed.

Lemma for_oc_run (files : list string) (σ : St) :
  exists L,
    for_ apply_oc_file files σ =
      (match first_failure oc_ok files with
       | None => Ok tt
       | Some f => Err (CalledProcessError (proc_rc (oc_cmd f)) (oc_cmd f))
       end, mkSt (st_files σ) (st_dirs σ) (st_log σ ++ L) (st_rng σ))
    /\ subprocesses L = oc_cmd <$> upto_failure oc_ok files
    /\ submissions L = [].
Proof.
  revert σ. induction files as [|f files IH]; intros σ.
  - exists []. simpl. unfold_m. split; [|done]. f_equal. apply St_eta_nil.
  - simpl. unfold mbind, M_bind, bind at 1. rewrite apply_oc_file_run.
    set (L0 := [Echo ("Running: " ++ String.concat " " (oc_cmd f));
                Subprocess (oc_cmd f)]).
    destruct (oc_ok f) eqn:Hok; simpl.
    + destruct (IH (mkSt (st_files σ) (st_dirs σ) (st_log σ ++ L0)%list (st_rng σ)))
        as [L [HL [Hs Ha]]].
      rewrite HL. simpl. exists (L0 ++ L)%list.
      rewrite <- !app_assoc. unfold subprocesses, submissions in *.
      rewrite !omap_app. simpl. rewrite Hs, Ha. done.
    + exists L0. done.
Qed.

Lemma for_python_run (files : list string) (σ : St) :
  exists L,
    for_ apply_python_file files σ =
      (match first_error open_error files with
       | None => Ok tt
       | Some e => Err e
       end, mkSt (st_files σ) (st_dirs σ) (st_log σ ++ L) (st_rng σ))
    /\ submissions L = take_while open_ok files
    /\ subprocesses L = [].
Proof.
  revert σ. induction files as [|f files IH]; intros σ.
  - exists []. simpl. unfold_m. split; [|done]. f_equal. apply St_eta_nil.
  - simpl. unfold mbind, M_bind, bind at 1. rewrite apply_python_file_run.
    unfold open_ok at 1.
    set (L0 := Echo ("Applying " ++ py_name f ++ " via Python client")
          :: match open_error f with
             | Some _ => []
             | None =>
                 ApiSubmit f :: match create_from_yaml f with
                                | Some e => [Echo ("  warn: " ++ exn_str e)]
                                | None => []
                                end
             end).
    assert (HL0 : submissions L0 = (if open_ok f then [f] else [])
                  /\ subprocesses L0 = []).
    { subst L0. unfold open_ok.
      destruct (open_error f); [done|]. destruct (create_from_yaml f); done. }
    destruct (open_error f) as [e|] eqn:Ho; simpl.
    + exists L0. unfold open_ok in HL0. rewrite Ho in HL0. done.
    + destruct (IH (mkSt (st_files σ) (st_dirs σ) (st_log σ ++ L0)%list (st_rng σ)))
        as [L [HL [Hs Hp]]].
      rewrite HL. simpl. exists (L0 ++ L)%list. rewrite <- !app_assoc.
      unfold open_ok in HL0. rewrite Ho in HL0. destruct HL0 as [H1 H2].
      unfold subprocesses, submissions in *. rewrite !omap_app.
      rewrite H1, H2, Hs, Hp. done.
Qed.

Lemma apply_with_python_run (mdir : string) (σ : St) :
  exists L,
    _apply_with_python mdir σ =
      (match python_error mdir with None => Ok tt | Some e => Err e end,
       mkSt (st_files σ) (st_dirs σ) (st_log σ ++ L) (st_rng σ))
    /\ submissions L = python_submitted mdir
    /\ subprocesses L = [].
Proof.
  unfold _apply_with_python, python_error, python_submitted, _kube_login_if_needed.
  set (L0 := match kube_config_error with
             | Some e => [Echo ("[warn] kubeconfig not loaded: " ++ e)]
             | None => []
             end).
  assert (Hk : (match kube_config_error with
                | Some e => echo ("[warn] kubeconfig not loaded: " ++ e)
                | None => ret tt
                end) σ = (Ok tt, mkSt (st_files σ) (st_dirs σ) (st_log σ ++ L0) (st_rng σ))).
  { subst L0. destruct kube_config_error; unfold_m; [done|].
    f_equal. apply St_eta_nil. }
  unfold mbind, M_bind, bind at 1. rewrite Hk.
  assert (HL0 : submissions L0 = [] /\ subprocesses L0 = [])
    by (subst L0; destruct kube_config_error; done).
  destruct api_client_error as [e|]; unfold_m.
  - exists L0. destruct HL0. done.
  - destruct (for_python_run (yml_files mdir)
               (mkSt (st_files σ) (st_dirs σ) (st_log σ ++ L0)%list (st_rng σ))) as [L [HL [Hs Hp]]].
    rewrite HL. simpl. exists (L0 ++ L)%list. rewrite app_assoc.
    unfold subprocesses, submissions in *. rewrite !omap_app.
    destruct HL0 as [H1 H2]. rewrite H1, H2, Hs, Hp. done.
Qed.

Lemma apply_oc_branch (mdir : string) (σ : St) :
  path_exists mdir = true -> proc_rc ["which"; "oc"] = 0%Z ->
  exists L,
    apply mdir σ =
      (match first_failure oc_ok (yml_files mdir) with
       | None => Ok tt
       | Some f => Err (CalledProcessError (proc_rc (oc_cmd f)) (oc_cmd f))
       end, mkSt (st_files σ) (st_dirs σ) (st_log σ ++ L) (st_rng σ))
    /\ subprocesses L = ["which"; "oc"] :: (oc_cmd <$> upto_failure oc_ok (yml_files mdir))
    /\ submissions L = [].
Proof.
  intros Hp Hw. unfold apply. rewrite Hp. simpl.
  unfold _oc_available, subprocess_call. unfold_m. rewrite Hw. simpl.
  unfold _apply_with_oc.
  destruct (for_oc_run (yml_files mdir)
              (mkSt (st_files σ) (st_dirs σ) (st_log σ ++ [Subprocess ["which"; "oc"]])%list (st_rng σ)))
    as [L [HL [Hs Ha]]].
  rewrite HL. simpl.
  destruct (first_failure oc_ok (yml_files mdir)) eqn:Hf; simpl.
  - exists ([Subprocess ["which"; "oc"]] ++ L)%list. rewrite <- app_assoc.
    unfold subprocesses, submissions in *. rewrite !omap_app, Hs, Ha. done.
  - exists ([Subprocess ["which"; "oc"]] ++ L ++ [Echo "Apply complete."])%list.
    unfold emit. simpl. rewrite <- !app_assoc. split; [done|].
    unfold subprocesses, submissions in *. rewrite !omap_app, Hs, Ha. simpl.
    rewrite ?app_nil_r. done.
Qed.


Lemma first_failure_split {A} (ok : A -> bool) (pre post : list A) (x : A) :
  Forall (fun y => ok y = true) pre -> ok x = false ->
  first_failure ok (pre ++ x :: post)%list = Some x
  /\ upto_failure ok (pre ++ x :: post)%list = (pre ++ [x])%list.
Proof.
  induction pre as [|y pre IH]; intros Hpre Hx; simpl.
  - rewrite Hx. done.
  - inversion Hpre as [|? ? Hy Hr]; subst. rewrite Hy.
    destruct (IH Hr Hx) as [H1 H2]. rewrite H1, H2. done.
Qed.

Lemma take_while_all {A} (ok : A -> bool) (xs : list A) :
  Forall (fun x => ok x = true) xs -> take_while ok xs = xs.
Proof. induction 1 as [|x xs Hx _ IH]; simpl; [done|]. rewrite Hx, IH. done. Qed.


Lemma ends_with_ml_spec (s : string) :
  ends_with_ml s = true <-> exists b, s = (b ++ "ml")%string.
Proof.
  split.
  - induction s as [|c r IH]; simpl; [done|].
    intros H. apply orb_true_iff in H as [H|H].
    + apply andb_true_iff in H as [Hc Hr].
      apply Ascii.eqb_eq in Hc. apply String.eqb_eq in Hr. subst. exists "". done.
    + destruct (IH H) as [b ->]. exists (String c b). done.
  - intros [b ->]. induction b as [|c b IH]; simpl; [done|].
    rewrite IH, orb_true_r. done.
Qed.

Lemma glob_yml_spec (name : string) :
  glob_yml name = true <-> exists a b, name = (a ++ ".y" ++ b ++ "ml")%string.
Proof.
  split.
  - induction name as [|c r IH]; simpl; [done|].
    intros H. apply orb_true_iff in H as [H|H].
    + apply andb_true_iff in H as [Hc Hr]. apply Ascii.eqb_eq in Hc. subst c.
      destruct r as [|c' r']; [done|].
      apply andb_true_iff in Hr as [Hy Hm]. apply Ascii.eqb_eq in Hy. subst c'.
      apply ends_with_ml_spec in Hm as [b ->]. exists "", b. done.
    + destruct (IH H) as [a [b ->]]. exists (String c a), b. done.
  - intros [a [b ->]]. induction a as [|c a IH]; simpl.
    + apply orb_true_iff; left. apply ends_with_ml_spec. exists b. reflexivity.
    + rewrite IH, orb_true_r. done.
Qed.

Lemma upto_failure_all {A} (ok : A -> bool) (xs : list A) :
  Forall (fun x => ok x = true) xs -> upto_failure ok xs = xs.
Proof. induction 1 as [|x xs Hx _ IH]; simpl; [done|]. rewrite Hx, IH. done. Qed.

(* ------------------------------------------------------------------ *)
(** ** Lemmas for the further properties *)

Lemma py_lstrip_idem (s : string) : py_lstrip (py_lstrip s) = py_lstrip s.
Proof.
  induction s as [|c r IH]; simpl; [done|].
  destruct (is_space c) eqn:H; [done|]. simpl. rewrite H. done.
Qed.

Lemma py_strip_idem (s : string) : py_strip (py_strip s) = py_strip s.
Proof.
  unfold py_strip. rewrite py_lstrip_rstrip, py_lstrip_idem, py_rstrip_idem. done.
Qed.

Lemma has_eq_lstrip (s : string) : has_eq s = false -> has_eq (py_lstrip s) = false.
Proof.
  induction s as [|c r IH]; simpl; [done|]. intros H.
  apply orb_false_elim in H as [H1 H2].
  destruct (is_space c); [auto|]. simpl. rewrite H1, H2. done.
Qed.

Lemma has_eq_rstrip (s : string) : has_eq s = false -> has_eq (py_rstrip s) = false.
Proof.
  induction s as [|c r IH]; simpl; [done|]. intros H.
  apply orb_false_elim in H as [H1 H2].
  destruct (is_space c && String.eqb (py_rstrip r) ""); [done|].
  simpl. rewrite H1, IH by done. done.
Qed.

Lemma has_eq_split_first (s : string) : has_eq (split_first_eq s).1 = false.
Proof.
  induction s as [|c r IH]; simpl; [done|].
  destruct (Ascii.eqb c "=") eqn:E; [done|].
  revert IH. destruct (split_first_eq r) as [k v]. simpl. intros IH.
  rewrite E, IH. done.
Qed.

(** Keys and values the loop stores are stripped, and keys have no ["="]. *)
Lemma line_entry_stripped (line k v : string) :
  line_entry line = Some (k, v) ->
  py_strip k = k /\ py_strip v = v /\ has_eq k = false.
Proof.
  unfold line_entry. cbv zeta.
  destruct (String.eqb (py_strip line) "" || starts_with_hash (py_strip line)
            || negb (has_eq (py_strip line))); [done|].
  pose proof (has_eq_split_first (py_strip line)) as Hk.
  destruct (split_first_eq (py_strip line)) as [k0 v0]. simpl in Hk.
  intros H. injection H as <- <-.
  rewrite !py_strip_idem. split; [done|]. split; [done|].
  unfold py_strip. apply has_eq_rstrip, has_eq_lstrip. done.
Qed.

Lemma py_lstrip_app_nonspace (a b : string) (c : ascii) :
  is_space c = false -> py_lstrip (a ++ String c b) = py_lstrip a ++ String c b.
Proof.
  intros Hc. induction a as [|c' a IH]; simpl; [rewrite Hc; done|].
  destruct (is_space c'); [done|]. done.
Qed.

Lemma py_rstrip_app_nonspace (a b : string) (c : ascii) :
  is_space c = false -> py_rstrip (a ++ String c b) = a ++ String c (py_rstrip b).
Proof.
  intros Hc. induction a as [|c' a IH]; simpl; [rewrite Hc; done|].
  rewrite IH. replace (String.eqb (a ++ String c (py_rstrip b)) "") with false
    by (destruct a; reflexivity).
  rewrite andb_false_r. done.
Qed.

(** A line [k=v] is stored as [strip k -> strip v] when [k] has no ["="] and
    does not start with ["#"] after its leading blanks. *)
Lemma line_entry_kv (k v : string) :
  has_eq k = false -> starts_with_hash (py_lstrip k) = false ->
  line_entry (k ++ "=" ++ v) = Some (py_strip k, py_strip v).
Proof.
  intros Hk Hh.
  assert (Hs : py_strip (k ++ "=" ++ v) = py_lstrip k ++ "=" ++ py_rstrip v).
  { unfold py_strip. change ("=" ++ v) with (String "=" v).
    rewrite (py_lstrip_app_nonspace k v "=") by reflexivity.
    rewrite py_rstrip_app_nonspace by reflexivity. reflexivity. }
  rewrite (line_entry_split _ _ _ Hs); [|apply has_eq_lstrip; done|done].
  rewrite py_strip_rstrip. unfold py_strip at 1. rewrite py_lstrip_idem. done.
Qed.

Lemma splitlines_line (l rest : string) (cur : list ascii) :
  no_break l = true ->
  splitlines_aux (l ++ String "010" rest) cur
  = string_of_list_ascii (rev cur ++ list_ascii_of_string l)%list
    :: splitlines_aux rest [].
Proof.
  revert cur. induction l as [|c l IH]; intros cur Hl; simpl.
  - rewrite app_nil_r. done.
  - apply andb_prop in Hl as [Hc Hl]. apply negb_true_iff in Hc.
    assert (Hcr : Ascii.eqb c "013" = false).
    { destruct (Ascii.eqb c "013") eqn:E; [|done].
      apply Ascii.eqb_eq in E. subst. done. }
    rewrite Hcr, Hc, IH by done. simpl. rewrite <- List.app_assoc. done.
Qed.

Lemma universal_newlines_cons (c : ascii) (r : string) :
  c <> "013"%char -> universal_newlines (String c r) = String c (universal_newlines r).
Proof. intros H. destruct c as [[] [] [] [] [] [] [] []]; try reflexivity. done. Qed.


Lemma universal_newlines_line (l rest : string) :
  no_break l = true ->
  universal_newlines (l ++ String "010" rest) = l ++ String "010" (universal_newlines rest).
Proof.
  induction l as [|c l IH]; intros Hl; [reflexivity|].
  apply andb_prop in Hl as [Hc Hl]. rewrite append_cons.
  rewrite universal_newlines_cons; [rewrite IH by done; done|].
  intros ->. done.
Qed.

Lemma no_break_env_line (k v : string) :
  no_break k = true -> no_break v = true -> no_break (env_line (k, v)) = true.
Proof.
  intros Hk Hv. unfold env_line. simpl. induction k as [|c k IH]; simpl in *.
  - exact Hv.
  - apply andb_prop in Hk as [Hc Hk]. rewrite Hc, IH by done. done.
Qed.

Lemma env_file_read (kvs : list (string * string)) :
  Forall (fun kv => no_break (env_line kv) = true) kvs ->
  py_splitlines (universal_newlines (env_file kvs)) = map env_line kvs.
Proof.
  induction 1 as [|kv kvs Hkv _ IH]; [done|].
  change (env_file (kv :: kvs)) with (env_line kv ++ String "010" (env_file kvs)).
  rewrite universal_newlines_line by done. unfold py_splitlines.
  rewrite splitlines_line by done. simpl.
  rewrite string_of_list_ascii_of_string. fold (py_splitlines (universal_newlines (env_file kvs))).
  rewrite IH. done.
Qed.

Lemma load_lines_env (m : gmap string string) (kvs : list (string * string)) :
  Forall (fun kv => has_eq kv.1 = false /\ starts_with_hash (py_lstrip kv.1) = false) kvs ->
  load_lines m (map env_line kvs)
  = list_to_map (reverse ((fun kv => (py_strip kv.1, py_strip kv.2)) <$> kvs)) ∪ m.
Proof.
  intros Hall. revert m. induction Hall as [|[k v] kvs [Hk Hh] _ IH]; intros m.
  - simpl. rewrite (left_id_L ∅ (∪)). done.
  - simpl. unfold env_line at 1. simpl. rewrite line_entry_kv by done.
    rewrite IH. rewrite reverse_cons, list_to_map_app. simpl.
    rewrite insert_empty, insert_union_singleton_l, (assoc_L (∪)). done.
Qed.

Lemma substring_full (s : string) : substring 0 (String.length s) s = s.
Proof. induction s as [|c r IH]; simpl; [done|]. rewrite IH. done. Qed.

Lemma substring_split (s : string) (i : nat) :
  (i <= String.length s)%nat ->
  (substring 0 i s ++ substring i (String.length s - i) s)%string = s.
Proof.
  revert i. induction s as [|c r IH]; intros [|i] H; simpl in *.
  - done.
  - lia.
  - rewrite substring_full. done.
  - rewrite append_cons, IH by lia. done.
Qed.

Lemma append_empty_r (s : string) : (s ++ "")%string = s.
Proof. induction s as [|c r IH]; [done|]. rewrite append_cons, IH. done. Qed.




Lemma load_env_values_state (values : option string) (σ : St) :
  (_load_env_values values σ).2 = σ.
Proof.
  unfold _load_env_values. destruct values as [f|]; [|done].
  destruct (String.eqb f ""); [done|].
  unfold mbind, M_bind, bind, read_text.
  destruct (st_files σ !! f); [done|]. destruct (bool_decide _); done.
Qed.


Lemma deploy_render_entry_log (vars_ : gmap string string) (outdir : string)
    (e : string * bool) (σ : St) :
  st_log (deploy_render_entry vars_ outdir e σ).2 = st_log σ.
Proof.
  destruct e as [name []]; unfold deploy_render_entry; [unfold_m; done|].
  destruct (String.eqb (py_suffix name) ".j2"); unfold_m; repeat case_match; simplify_eq/=; done.
Qed.

Lemma deploy_render_loop_log (vars_ : gmap string string) (outdir : string)
    (es : list (string * bool)) (σ : St) :
  st_log (for_ (deploy_render_entry vars_ outdir) es σ).2 = st_log σ.
Proof.
  revert σ. induction es as [|e es IH]; intros σ; [unfold_m; done|].
  simpl. unfold mbind, M_bind, bind at 1.
  pose proof (deploy_render_entry_log vars_ outdir e σ) as H.
  destruct (deploy_render_entry vars_ outdir e σ) as [[] σ1]; simpl in *;
    [rewrite IH|]; done.
Qed.



Lemma deploy_render_phase_spec (values : option string) (σ : St) :
  st_log (deploy_render_phase values σ).2 = st_log σ /\
  forall outdir vars_ σ', deploy_render_phase values σ = (Ok (outdir, vars_), σ') ->
    outdir = BUILD_DIR /\ _load_env_values values σ = (Ok vars_, σ).
Proof.
  pose proof (load_env_values_state values σ) as Hs.
  unfold deploy_render_phase. unfold mbind, M_bind, bind, _ensure_dir. cbv beta.
  destruct (_load_env_values values σ) as [[v|e] σ1] eqn:E; simpl in Hs; subst σ1; simpl.
  2: { split; [done|]. intros ? ? ? H. discriminate H. }
  match goal with |- context [for_ (deploy_render_entry ?vs ?od) ?es ?st] =>
    pose proof (deploy_render_loop_log vs od es st) as Hl;
    destruct (for_ (deploy_render_entry vs od) es st) as [[] σ2] eqn:E2 end;
    simpl in *; unfold ret.
  - split; [done|]. intros o w σ' H. injection H as <- <- <-. done.
  - split; [done|]. intros ? ? ? H. discriminate H.
Qed.

(** C6: in a values file, the last well-formed [KEY=VALUE] line of a key
    decides its value: the stripped line [k0=v0] is split at its first
    ["="] ([k0] has none), and [strip k0] is mapped to [strip v0] whatever
    earlier lines said, as long as no later line sets the same key. *)
Theorem load_env_values_last_occurrence (σ : St) (f txt line k0 v0 : string)
    (pre post : list string) :
  f <> "" -> st_files σ !! f = Some txt ->
  py_splitlines (universal_newlines txt) = (pre ++ line :: post)%list ->
  py_strip line = k0 ++ "=" ++ v0 ->
  has_eq k0 = false -> starts_with_hash k0 = false ->
  Forall (fun l => fst <$> line_entry l <> Some (py_strip k0)) post ->
  exists values : gmap string string, _load_env_values (Some f) σ = (Ok values, σ)
    /\ values !! py_strip k0 = Some (py_strip v0).
Proof.
  intros Hf Ht Hls Hl Hk Hh Hpost.
  exists (env_values_of_text txt). split; [by apply load_env_values_file|].
  unfold env_values_of_text. rewrite Hls.
  apply load_lines_last; [|done]. by apply line_entry_split.
Qed.

(** C7: loading a readable values file never fails, and every entry of
    the mapping comes from a line that is, once stripped, non-blank, not a
    ["#"] comment and contains ["="]; no key starts with ["#"]. *)
Theorem load_env_values_wellformed_only (σ : St) (f txt : string) :
  st_files σ !! f = Some txt ->
  exists values : gmap string string, _load_env_values (Some f) σ = (Ok values, σ) /\
  forall k v, values !! k = Some v ->
    exists line, In line (py_splitlines (universal_newlines txt))
      /\ py_strip line <> "" /\ starts_with_hash (py_strip line) = false
      /\ has_eq (py_strip line) = true
      /\ line_entry line = Some (k, v) /\ starts_with_hash k = false.
Proof.
  intros Ht. destruct (String.eqb f "") eqn:Hf.
  - exists ∅. unfold _load_env_values. rewrite Hf. split; [done|].
    intros k v Hk. rewrite lookup_empty in Hk. done.
  - apply String.eqb_neq in Hf.
    exists (env_values_of_text txt). split; [by apply load_env_values_file|].
    intros k v Hk. unfold env_values_of_text in Hk.
    destruct (load_lines_origin _ _ _ _ Hk) as [He|[line [Hin Hl]]].
    { rewrite lookup_empty in He. done. }
    exists line. destruct (line_entry_Some _ _ _ Hl) as (H1 & H2 & H3 & H4).
    done.
Qed.

(** C10: a line [w=v] whose part before the first ["="] is whitespace is
    not skipped: it is stored under the empty key with the stripped value,
    so [""] is a key of the mapping, bound to [strip v] unless a later line
    sets [""] again. *)
Theorem load_env_values_empty_key (σ : St) (f txt w v : string)
    (pre post : list string) :
  f <> "" -> st_files σ !! f = Some txt ->
  py_splitlines (universal_newlines txt) = (pre ++ (w ++ "=" ++ v)%string :: post)%list ->
  all_space w = true ->
  line_entry (w ++ "=" ++ v) = Some ("", py_strip v) /\
  exists values : gmap string string, _load_env_values (Some f) σ = (Ok values, σ)
    /\ is_Some (values !! "")
    /\ (Forall (fun l => fst <$> line_entry l <> Some "") post ->
        values !! "" = Some (py_strip v)).
Proof.
  intros Hf Ht Hls Hw.
  pose proof (line_entry_empty_key w v Hw) as He.
  split; [done|].
  exists (env_values_of_text txt). split; [by apply load_env_values_file|].
  unfold env_values_of_text. rewrite Hls. split.
  - rewrite load_lines_app. simpl. rewrite He.
    apply load_lines_keeps. rewrite lookup_insert_eq. eauto.
  - intros Hpost. by apply load_lines_last.
Qed.


(** C9: when the [--extra-vars] blob is given and [json.loads] rejects it,
    [run-playbook] raises that exception before anything else happens:
    the state, and so the trace, is unchanged and no playbook is run. *)
Theorem run_playbook_malformed (playbook s : string) (e : exn) (σ : St) :
  s <> "" -> json_loads s = Err e ->
  run_playbook playbook (Some s) σ = (Err e, σ)
  /\ ansible_runs (st_log (run_playbook playbook (Some s) σ).2) = ansible_runs (st_log σ).
Proof.
  intros Hs Hj. apply String.eqb_neq in Hs.
  unfold run_playbook, load_extravars. rewrite Hs, Hj.
  unfold_m. done.
Qed.

(** C1 (as amended): when [oc] is on the path, [apply] runs [which oc] and
    then [oc apply -f] on the sorted YAML files one at a time; when the
    file [f] is the first whose [oc apply] exits non-zero, no later file is
    tried and the command fails with the uncaught [CalledProcessError]
    carrying [f]'s exit code; the process exit status is then 1, that of an
    uncaught exception, not [f]'s code. *)
Theorem apply_oc_fail_fast (mdir f : string) (pre post : list string) (σ : St) :
  path_exists mdir = true -> proc_rc ["which"; "oc"] = 0%Z ->
  yml_files mdir = (pre ++ f :: post)%list ->
  Forall (fun g => proc_rc (oc_cmd g) = 0%Z) pre -> proc_rc (oc_cmd f) <> 0%Z ->
  (apply mdir σ).1 = Err (CalledProcessError (proc_rc (oc_cmd f)) (oc_cmd f))
  /\ subprocesses (st_log (apply mdir σ).2)
     = (subprocesses (st_log σ) ++ ["which"; "oc"] :: (oc_cmd <$> pre ++ [f]))%list
  /\ exit_status (apply mdir σ).1 = 1%Z.
Proof.
  intros Hp Hw Hfiles Hpre Hf.
  assert (Hok : Forall (fun g => oc_ok g = true) pre).
  { eapply Forall_impl; [exact Hpre|]. intros g Hg. unfold oc_ok. rewrite Hg. done. }
  assert (Hfk : oc_ok f = false) by (unfold oc_ok; apply Z.eqb_neq; done).
  destruct (first_failure_split oc_ok pre post f Hok Hfk) as [H1 H2].
  destruct (apply_oc_branch mdir σ Hp Hw) as [L [HL [Hs _]]].
  rewrite HL, Hfiles, H1. simpl. rewrite Hfiles, H2 in Hs.
  unfold subprocesses in *. rewrite omap_app, Hs. done.
Qed.



(** C4 (as amended): both strategies work on [yml_files]: the entries
    directly in the directory (files or subdirectories) whose name matches
    the case-sensitive glob ["*.y*ml"], i.e. has the form [a.yb ml]
    (so [x.yml] and [x.yaml] but also [x.yhtml], and not [x.YAML]), in
    sorted order; with no failure, [oc] applies and API submissions go
    through exactly that list. *)
Theorem yml_files_selection (mdir : string) (σ : St) :
  (forall p, In p (yml_files mdir) <->
     exists name, In name (fst <$> listdir mdir) /\ glob_yml name = true
                  /\ p = path_join mdir name)
  /\ Sorted path_le (yml_files mdir)
  /\ (forall name, glob_yml name = true <->
        exists a b, name = (a ++ ".y" ++ b ++ "ml")%string)
  /\ (Forall (fun f => proc_rc (oc_cmd f) = 0%Z) (yml_files mdir) ->
      (_apply_with_oc mdir σ).1 = Ok tt
      /\ subprocesses (st_log (_apply_with_oc mdir σ).2)
         = (subprocesses (st_log σ) ++ (oc_cmd <$> yml_files mdir))%list)
  /\ (api_client_error = None ->
      Forall (fun f => open_error f = None) (yml_files mdir) ->
      submissions (st_log (_apply_with_python mdir σ).2)
      = (submissions (st_log σ) ++ yml_files mdir)%list).
Proof.
  split; [|split; [|split; [|split]]].
  - intros p. unfold yml_files. split.
    + intros Hin. apply (Permutation_in _ (merge_sort_Permutation _ _)) in Hin.
      apply in_map_iff in Hin as [name [<- Hn]].
      apply filter_In in Hn as [Hn Hg]. exists name. done.
    + intros [name [Hn [Hg ->]]].
      apply (Permutation_in _ (Permutation_sym (merge_sort_Permutation _ _))).
      apply in_map. apply filter_In. done.
  - unfold yml_files. apply Sorted_merge_sort. apply _.
  - apply glob_yml_spec.
  - intros Hall.
    assert (Hok : Forall (fun g => oc_ok g = true) (yml_files mdir)).
    { eapply Forall_impl; [exact Hall|]. intros g Hg. unfold oc_ok. rewrite Hg. done. }
    unfold _apply_with_oc.
    destruct (for_oc_run (yml_files mdir) σ) as [L [HL [Hs _]]].
    rewrite HL. simpl. rewrite upto_failure_all in Hs by done.
    assert (Hn : first_failure oc_ok (yml_files mdir) = None).
    { clear -Hok. induction Hok as [|x xs Hx _ IH]; simpl; [done|]. rewrite Hx. done. }
    rewrite Hn. unfold subprocesses in *. rewrite omap_app, Hs. done.
  - intros Ha Ho.
    destruct (apply_with_python_run mdir σ) as [L [HL [Hs _]]].
    rewrite HL. simpl. unfold submissions in *. rewrite omap_app, Hs.
    unfold python_submitted. rewrite Ha, take_while_all; [done|].
    eapply Forall_impl; [exact Ho|]. intros f Hf. unfold open_ok. rewrite Hf. done.
Qed.

(* ------------------------------------------------------------------ *)
(** ** Further properties of the code *)


(** A values file written as [k=v] lines, each ended by a line feed (as in
    [test_env_loader]), with keys and values free of line breaks and keys
    without ["="] that do not start with ["#"] after their leading blanks,
    loads back as the dict of the stripped pairs, a later pair winning over
    an earlier one with the same key. *)
Theorem load_env_values_roundtrip (σ : St) (f : string) (kvs : list (string * string)) :
  f <> "" -> st_files σ !! f = Some (env_file kvs) ->
  Forall (fun kv => no_break kv.1 = true /\ no_break kv.2 = true
                    /\ has_eq kv.1 = false /\ starts_with_hash (py_lstrip kv.1) = false) kvs ->
  _load_env_values (Some f) σ
  = (Ok (list_to_map (reverse ((fun kv => (py_strip kv.1, py_strip kv.2)) <$> kvs))), σ).
Proof.
  intros Hf Ht Hall. rewrite (load_env_values_file σ f _ Hf Ht).
  unfold env_values_of_text. rewrite env_file_read.
  - rewrite load_lines_env; [by rewrite (right_id_L ∅ (∪))|].
    eapply Forall_impl; [exact Hall|]. intros kv (_ & _ & H1 & H2). done.
  - eapply Forall_impl; [exact Hall|]. intros [k v] (H1 & H2 & _). simpl in *.
    by apply no_break_env_line.
Qed.

(** Every key and value the loader returns is stripped of surrounding
    whitespace, and no key contains ["="]. *)
Theorem load_env_values_stripped (σ : St) (f txt : string) :
  st_files σ !! f = Some txt ->
  exists values : gmap string string, _load_env_values (Some f) σ = (Ok values, σ)
    /\ map_Forall (fun k v => py_strip k = k /\ py_strip v = v /\ has_eq k = false) values.
Proof.
  intros Ht. destruct (String.eqb f "") eqn:Hf.
  - exists ∅. unfold _load_env_values. rewrite Hf. split; [done|].
    apply map_Forall_empty.
  - apply String.eqb_neq in Hf.
    exists (env_values_of_text txt). split; [by apply load_env_values_file|].
    intros k v Hk. unfold env_values_of_text in Hk.
    destruct (load_lines_origin _ _ _ _ Hk) as [He|[line [_ Hl]]].
    + rewrite lookup_empty in He. done.
    + by apply (line_entry_stripped line).
Qed.

(** [Path.stem] followed by [Path.suffix] gives back the name; so the
    output name [render] uses for a [".j2"] template is the template's
    name without its last four characters ".j2". *)
Theorem py_stem_suffix (name : string) :
  (py_stem name ++ py_suffix name)%string = name
  /\ (py_suffix name = ".j2" -> (py_stem name ++ ".j2")%string = name).
Proof.
  assert (H : (py_stem name ++ py_suffix name)%string = name).
  { unfold py_stem, py_suffix. destruct (rfind "." name) as [i|].
    - destruct ((0 <? i)%nat && (i <? String.length name - 1)%nat) eqn:E.
      + apply andb_prop in E as [_ E]. apply Nat.ltb_lt in E.
        apply substring_split. lia.
      + apply append_empty_r.
    - apply append_empty_r. }
  split; [done|]. intros Hs. rewrite <- Hs. done.
Qed.



(** [deploy] runs the playbook only after the render phase succeeded: if
    rendering raises, that exception is the result and no playbook runs;
    otherwise exactly one run of [deploy.yml] follows, with the extra vars
    built from [BUILD_DIR] and the values, and the exit status of the
    command is that run's return code. *)
Theorem deploy_playbook_after_render (values : option string) (σ : St) :
  (forall e σ', deploy_render_phase values σ = (Err e, σ') ->
     deploy values σ = (Err e, σ')
     /\ ansible_calls (st_log σ') = ansible_calls (st_log σ))
  /\ (forall outdir vars_ σ', deploy_render_phase values σ = (Ok (outdir, vars_), σ') ->
     _load_env_values values σ = (Ok vars_, σ)
     /\ ansible_calls (st_log (deploy values σ).2)
        = (ansible_calls (st_log σ)
           ++ [("deploy.yml", deploy_extravars BUILD_DIR vars_)])%list
     /\ exit_status (deploy values σ).1
        = ansible_rc "deploy.yml" (deploy_extravars BUILD_DIR vars_)).
Proof.
  destruct (deploy_render_phase_spec values σ) as [Hlog Hok].
  split.
  - intros e σ' H. rewrite H in Hlog. simpl in Hlog.
    unfold deploy. unfold mbind, M_bind, bind at 1. cbv beta. rewrite H.
    split; [done|]. rewrite Hlog. done.
  - intros o v σ' H. destruct (Hok _ _ _ H) as [-> Hl]. rewrite H in Hlog.
    simpl in Hlog. split; [done|].
    unfold deploy. unfold mbind, M_bind, bind. cbv beta. rewrite H.
    unfold _run_ansible. unfold_m.
    destruct (Z.eqb (ansible_rc "deploy.yml" (deploy_extravars BUILD_DIR v)) 0) eqn:Erc;
      unfold_m; unfold ansible_calls; rewrite !omap_app, Hlog; simpl;
      rewrite <- ?app_assoc; simpl.
    + split; [done|]. apply Z.eqb_eq in Erc. done.
    + split; done.
Qed.

(** The extra vars of [deploy], [{"manifest_dir": str(outdir), **vars_}],
    hold each key once; a key of the values maps to its value, so a
    [manifest_dir] entry in the values file overrides the output
    directory, which is used only when the values have no such key. *)
Theorem deploy_extravars_values_win (outdir : string) (vars_ : gmap string string) :
  exists kvs, deploy_extravars outdir vars_ = JObj kvs /\ NoDup kvs.*1
  /\ (forall k j, In (k, j) kvs <->
        exists s, j = JStr s
          /\ (vars_ !! k = Some s
              \/ (k = "manifest_dir" /\ vars_ !! k = None /\ s = outdir))).
Proof.
  eexists. split; [reflexivity|].
  set (m := vars_ ∪ {["manifest_dir" := outdir]}). split.
  - assert (H : ((fun kv : string * string => (kv.1, JStr kv.2)) <$> map_to_list m).*1
                = (map_to_list m).*1).
    { induction (map_to_list m) as [|[a b] l IH]; [done|]. simpl. f_equal. exact IH. }
    rewrite H. apply NoDup_fst_map_to_list.
  - intros k j. rewrite <- list_elem_of_In, list_elem_of_fmap. split.
    + intros [[k' s] [Heq Hin]]. injection Heq as -> ->. exists s. split; [done|].
      apply elem_of_map_to_list in Hin. subst m.
      apply lookup_union_Some_raw in Hin as [Hv|[H1 H2]]; [by left|right].
      apply lookup_singleton_Some in H2 as [<- <-]. done.
    + intros [s [-> Hs]]. exists (k, s). split; [done|].
      apply elem_of_map_to_list. subst m. apply lookup_union_Some_raw.
      destruct Hs as [Hs|(-> & H1 & ->)]; [by left|right].
      split; [done|]. by apply lookup_singleton_Some.
Qed.

(** [rollback] runs [rollback.yml] once with [{"NAMESPACE": namespace}]
    and exits with the playbook's return code. *)
Theorem rollback_exit_code (namespace : string) (σ : St) :
  ansible_calls (st_log (rollback namespace σ).2)
    = (ansible_calls (st_log σ)
       ++ [("rollback.yml", JObj [("NAMESPACE", JStr namespace)])])%list
  /\ exit_status (rollback namespace σ).1
     = ansible_rc "rollback.yml" (JObj [("NAMESPACE", JStr namespace)]).
Proof.
  unfold rollback, _run_ansible. unfold_m.
  destruct (Z.eqb (ansible_rc "rollback.yml" (JObj [("NAMESPACE", JStr namespace)])) 0)
    eqn:Erc; unfold_m; unfold ansible_calls; rewrite !omap_app; simpl;
    rewrite <- ?app_assoc; simpl.
  - split; [done|]. apply Z.eqb_eq in Erc. done.
  - done.
Qed.

(** [run-playbook] with no extra vars, an empty string, or a blob that
    parses to [ev] runs the playbook once with [ev] ([{}] in the first two
    cases) and always ends with [typer.Exit(rc)], even for [rc = 0]: the
    exit status is the playbook's return code. *)
Theorem run_playbook_exit_code (playbook : string) (extravars : option string)
    (ev : json) (σ : St) :
  (extravars = None /\ ev = JObj []) \/ (extravars = Some "" /\ ev = JObj [])
  \/ (exists s, extravars = Some s /\ s <> "" /\ json_loads s = Ok ev) ->
  (run_playbook playbook extravars σ).1 = Err (TyperExit (ansible_rc playbook ev))
  /\ exit_status (run_playbook playbook extravars σ).1 = ansible_rc playbook ev
  /\ ansible_calls (st_log (run_playbook playbook extravars σ).2)
     = (ansible_calls (st_log σ) ++ [(playbook, ev)])%list.
Proof.
  intros Hx.
  assert (Hl : load_extravars extravars σ = (Ok ev, σ)).
  { destruct Hx as [[-> ->]|[[-> ->]|[s (-> & Hs & Hj)]]]; [done|done|].
    unfold load_extravars. apply String.eqb_neq in Hs. rewrite Hs, Hj. done. }
  unfold run_playbook. unfold mbind, M_bind, bind. cbv beta. rewrite Hl.
  unfold _run_ansible. unfold_m. unfold ansible_calls. rewrite !omap_app. simpl.
  rewrite app_nil_r. done.
Qed.

(** Without [oc] on the path, [oc-login] exits with 1 after [which oc],
    and runs no login command. *)
Theorem oc_login_without_oc (cluster_api token : string) (insecure : bool) (σ : St) :
  proc_rc ["which"; "oc"] <> 0%Z ->
  (oc_login cluster_api token insecure σ).1 = Err (TyperExit 1)
  /\ exit_status (oc_login cluster_api token insecure σ).1 = 1%Z
  /\ subprocesses (st_log (oc_login cluster_api token insecure σ).2)
     = (subprocesses (st_log σ) ++ [["which"; "oc"]])%list.
Proof.
  intros Hw. apply Z.eqb_neq in Hw.
  unfold oc_login, _oc_available, subprocess_call. unfold_m. rewrite Hw. unfold_m.
  unfold subprocesses. rewrite !omap_app. simpl. rewrite !app_nil_r. done.
Qed.


(** [apply] on a manifests path that does not exist exits with 1 before
    running any subprocess or API submission, and changes no file. *)
Theorem apply_missing_dir (mdir : string) (σ : St) :
  path_exists mdir = false ->
  (apply mdir σ).1 = Err (TyperExit 1) /\ exit_status (apply mdir σ).1 = 1%Z
  /\ subprocesses (st_log (apply mdir σ).2) = subprocesses (st_log σ)
  /\ submissions (st_log (apply mdir σ).2) = submissions (st_log σ)
  /\ st_files (apply mdir σ).2 = st_files σ.
Proof.
  intros Hp. unfold apply. rewrite Hp. unfold_m.
  unfold subprocesses, submissions. rewrite !omap_app. simpl. rewrite !app_nil_r.
  done.
Qed.


End Cli.

(* ------------------------------------------------------------------ *)
(** ** The statements on the concrete environment *)

Lemma load_env_values_last_occurrence_witness :
  exists values : gmap string string,
    _load_env_values (Some "/v.env") Demo.σ0 = (Ok values, Demo.σ0)
    /\ values !! py_strip "A" = Some (py_strip "2").
Proof.
  apply (load_env_values_last_occurrence Demo.σ0 "/v.env" Demo.env_text "A=2" "A" "2"
           ["A=1"] ["=e"]).
  - discriminate.
  - vm_compute. reflexivity.
  - vm_compute. reflexivity.
  - vm_compute. reflexivity.
  - reflexivity.
  - reflexivity.
  - repeat constructor. vm_compute. discriminate.
Defined.

Lemma load_env_values_wellformed_only_witness :
  exists values : gmap string string,
    _load_env_values (Some "/v.env") Demo.σ0 = (Ok values, Demo.σ0) /\
    forall k v, values !! k = Some v ->
      exists line, In line (py_splitlines (universal_newlines Demo.env_text))
        /\ py_strip line <> "" /\ starts_with_hash (py_strip line) = false
        /\ has_eq (py_strip line) = true
        /\ line_entry line = Some (k, v) /\ starts_with_hash k = false.
Proof.
  apply (load_env_values_wellformed_only Demo.σ0 "/v.env" Demo.env_text).
  vm_compute. reflexivity.
Defined.

Lemma load_env_values_empty_key_witness :
  line_entry ("" ++ "=" ++ "e") = Some ("", py_strip "e") /\
  exists values : gmap string string,
    _load_env_values (Some "/v.env") Demo.σ0 = (Ok values, Demo.σ0)
    /\ is_Some (values !! "")
    /\ (Forall (fun l => fst <$> line_entry l <> Some "") [] ->
        values !! "" = Some (py_strip "e")).
Proof.
  apply (load_env_values_empty_key Demo.σ0 "/v.env" Demo.env_text "" "e"
           ["A=1"; "A=2"] []).
  - discriminate.
  - vm_compute. reflexivity.
  - vm_compute. reflexivity.
  - reflexivity.
Defined.

Lemma run_playbook_malformed_witness :
  run_playbook Demo.ROOT Demo.json_loads Demo.ansible_rc Demo.ansible_fs "site.yml" (Some "{") Demo.σ0
    = (Err (JSONDecodeError "Expecting property name"), Demo.σ0)
  /\ ansible_runs (st_log (run_playbook Demo.ROOT Demo.json_loads Demo.ansible_rc Demo.ansible_fs
                            "site.yml" (Some "{") Demo.σ0).2)
     = ansible_runs (st_log Demo.σ0).
Proof.
  apply (run_playbook_malformed Demo.ROOT Demo.json_loads Demo.ansible_rc Demo.ansible_fs "site.yml" "{"
           (JSONDecodeError "Expecting property name") Demo.σ0).
  - discriminate.
  - reflexivity.
Defined.

(** With [oc] installed and [oc apply] failing with 2 on [a.yaml], [apply]
    never runs [oc] on [b.yaml], but the command's exit status is 1, not 2:
    the [CalledProcessError] is not turned into [typer.Exit]. *)
Lemma apply_oc_exit_code_counterexample :
  let r := apply Demo.proc_rc_oc Demo.path_exists Demo.listdir None None
             Demo.no_error Demo.no_error "/m" Demo.σ0 in
  Demo.proc_rc_oc (oc_cmd "/m/a.yaml") = 2%Z
  /\ subprocesses (st_log r.2) = [["which"; "oc"]; oc_cmd "/m/a.yaml"]
  /\ exit_status r.1 = 1%Z
  /\ exit_status r.1 <> Demo.proc_rc_oc (oc_cmd "/m/a.yaml").
Proof. vm_compute. repeat split; discriminate. Qed.

Lemma apply_oc_fail_fast_witness :
  let r := apply Demo.proc_rc_oc Demo.path_exists Demo.listdir None None
             Demo.no_error Demo.no_error "/m" Demo.σ0 in
  r.1 = Err (CalledProcessError (Demo.proc_rc_oc (oc_cmd "/m/a.yaml")) (oc_cmd "/m/a.yaml"))
  /\ subprocesses (st_log r.2)
     = (subprocesses (st_log Demo.σ0) ++ ["which"; "oc"] :: (oc_cmd <$> [] ++ ["/m/a.yaml"]))%list
  /\ exit_status r.1 = 1%Z.
Proof.
  apply (apply_oc_fail_fast Demo.proc_rc_oc Demo.path_exists Demo.listdir None None
           Demo.no_error Demo.no_error "/m" "/m/a.yaml" [] ["/m/b.yaml"] Demo.σ0).
  - reflexivity.
  - vm_compute. reflexivity.
  - vm_compute. reflexivity.
  - constructor.
  - vm_compute. discriminate.
Defined.



(** The glob is case-sensitive and [*.y*ml] is wider than [.yml]/[.yaml]:
    in [/c], [a.YAML] is left out and [b.yhtml] is applied. *)
Lemma yml_files_counterexample :
  Demo.listdir "/c" = [("a.YAML", false); ("b.yhtml", false); ("c.yml", false)]
  /\ yml_files Demo.listdir "/c" = ["/c/b.yhtml"; "/c/c.yml"].
Proof. split; vm_compute; reflexivity. Qed.

(** C8: the plain manifest [x.yaml] of [/repo] has Windows line endings;
    [render] writes it with [\n] endings, not verbatim. It also comes after
    the template [x.yaml.j2], whose output has the same name: the three
    entries (with a subdirectory) leave a single output file, the copy, so
    the mapping is not one to one. *)
Lemma render_not_verbatim_counterexample :
  Demo.listdir (MANIFEST_DIR Demo.ROOT)
    = [("x.yaml.j2", false); ("x.yaml", false); ("sub", true)]
  /\ st_files Demo.σ0 !! path_join (MANIFEST_DIR Demo.ROOT) "x.yaml"
     = Some ("a: 1" ++ CR ++ LF)%string
  /\ (render Demo.ROOT Demo.listdir Demo.no_syntax_error Demo.jinja_render None "/out"
       Demo.σ0).1 = Ok tt
  /\ st_files (render Demo.ROOT Demo.listdir Demo.no_syntax_error Demo.jinja_render None
                "/out" Demo.σ0).2
     = <[path_join "/out" "x.yaml" := ("a: 1" ++ LF)%string]> (st_files Demo.σ0).
Proof. split; [|split; [|split]]; vm_compute; reflexivity. Qed.




(** The values file of [test_env_loader]. *)
Lemma load_env_values_roundtrip_witness :
  _load_env_values (Some "/t/.env")
    (mkSt {["/t/.env" := env_file [("APP_NAME", "hello"); ("NAMESPACE", "demo")]]} ∅ [] 0%Z)
  = (Ok (list_to_map (reverse ((fun kv : string * string => (py_strip kv.1, py_strip kv.2))
          <$> [("APP_NAME", "hello"); ("NAMESPACE", "demo")]))),
     mkSt {["/t/.env" := env_file [("APP_NAME", "hello"); ("NAMESPACE", "demo")]]} ∅ [] 0%Z).
Proof.
  apply load_env_values_roundtrip.
  - discriminate.
  - vm_compute. reflexivity.
  - repeat constructor.
Defined.

Lemma load_env_values_stripped_witness :
  exists values : gmap string string,
    _load_env_values (Some "/v.env") Demo.σ0 = (Ok values, Demo.σ0)
    /\ map_Forall (fun k v => py_strip k = k /\ py_strip v = v /\ has_eq k = false) values.
Proof.
  apply (load_env_values_stripped Demo.σ0 "/v.env" Demo.env_text).
  vm_compute. reflexivity.
Defined.

Lemma py_stem_suffix_witness :
  py_suffix "x.yaml.j2" = ".j2" /\ (py_stem "x.yaml.j2" ++ ".j2")%string = "x.yaml.j2".
Proof.
  destruct (py_stem_suffix "x.yaml.j2") as [_ H].
  split; [vm_compute; reflexivity|]. apply H. vm_compute. reflexivity.
Defined.



(** The template of [/r3] does not parse: [deploy] fails with the
    [TemplateSyntaxError] and runs no playbook. *)
Lemma deploy_playbook_after_render_witness :
  exists σ',
    deploy_render_phase "/r3" Demo.listdir Demo.syntax_error Demo.jinja_render None Demo.σ0
      = (Err Demo.template_syntax_exn, σ')
    /\ deploy "/r3" Demo.listdir Demo.syntax_error Demo.jinja_render Demo.ansible_rc
         Demo.ansible_fs None Demo.σ0 = (Err Demo.template_syntax_exn, σ')
    /\ ansible_calls (st_log σ') = ansible_calls (st_log Demo.σ0).
Proof.
  exists (deploy_render_phase "/r3" Demo.listdir Demo.syntax_error Demo.jinja_render None
            Demo.σ0).2.
  assert (H : deploy_render_phase "/r3" Demo.listdir Demo.syntax_error Demo.jinja_render
                None Demo.σ0
              = (Err Demo.template_syntax_exn,
                 (deploy_render_phase "/r3" Demo.listdir Demo.syntax_error Demo.jinja_render
                    None Demo.σ0).2)) by (vm_compute; reflexivity).
  split; [exact H|].
  apply (proj1 (deploy_playbook_after_render "/r3" Demo.listdir Demo.syntax_error
                  Demo.jinja_render Demo.ansible_rc Demo.ansible_fs None Demo.σ0)).
  exact H.
Defined.

Lemma run_playbook_exit_code_witness :
  (run_playbook Demo.ROOT Demo.json_loads Demo.ansible_rc Demo.ansible_fs "site.yml" (Some "{}") Demo.σ0).1
    = Err (TyperExit 0)
  /\ exit_status (run_playbook Demo.ROOT Demo.json_loads Demo.ansible_rc Demo.ansible_fs "site.yml"
                    (Some "{}") Demo.σ0).1 = 0%Z
  /\ ansible_calls (st_log (run_playbook Demo.ROOT Demo.json_loads Demo.ansible_rc Demo.ansible_fs
                              "site.yml" (Some "{}") Demo.σ0).2)
     = (ansible_calls (st_log Demo.σ0) ++ [("site.yml", JObj [])])%list.
Proof.
  apply (run_playbook_exit_code Demo.ROOT Demo.json_loads Demo.ansible_rc Demo.ansible_fs "site.yml"
           (Some "{}") (JObj []) Demo.σ0).
  right; right. exists "{}". split; [reflexivity|]. split; [discriminate|].
  vm_compute. reflexivity.
Defined.

Lemma oc_login_without_oc_witness :
  (oc_login Demo.proc_rc_none "https://api.example:6443" "tok" false Demo.σ0).1
    = Err (TyperExit 1)
  /\ exit_status (oc_login Demo.proc_rc_none "https://api.example:6443" "tok" false
                    Demo.σ0).1 = 1%Z
  /\ subprocesses (st_log (oc_login Demo.proc_rc_none "https://api.example:6443" "tok"
                             false Demo.σ0).2)
     = (subprocesses (st_log Demo.σ0) ++ [["which"; "oc"]])%list.
Proof.
  apply oc_login_without_oc. unfold Demo.proc_rc_none. discriminate.
Defined.


Lemma apply_missing_dir_witness :
  (apply Demo.proc_rc_oc Demo.path_exists Demo.listdir None None Demo.no_error
     Demo.no_error "/nope" Demo.σ0).1 = Err (TyperExit 1)
  /\ exit_status (apply Demo.proc_rc_oc Demo.path_exists Demo.listdir None None
                    Demo.no_error Demo.no_error "/nope" Demo.σ0).1 = 1%Z
  /\ subprocesses (st_log (apply Demo.proc_rc_oc Demo.path_exists Demo.listdir None None
                             Demo.no_error Demo.no_error "/nope" Demo.σ0).2)
     = subprocesses (st_log Demo.σ0)
  /\ submissions (st_log (apply Demo.proc_rc_oc Demo.path_exists Demo.listdir None None
                            Demo.no_error Demo.no_error "/nope" Demo.σ0).2)
     = submissions (st_log Demo.σ0)
  /\ st_files (apply Demo.proc_rc_oc Demo.path_exists Demo.listdir None None
                 Demo.no_error Demo.no_error "/nope" Demo.σ0).2 = st_files Demo.σ0.
Proof.
  apply apply_missing_dir. vm_compute. reflexivity.
Defined.

